(** * A2C on LunarLander: the experiment script
      [experiments/box2d/a2c_lunarlander.py]

    A shallow embedding of the script's own code: the [Policy] class
    (constructor, [_forward], [_preprocess], [forward],
    [evaluate_actions]), [make_env] and [run].

    What the script computes itself is written out.  What it only calls
    is kept as the call:
    - tensor arithmetic, the categorical distribution and the global
      random generator of torch are the operations of the class [Torch];
    - objects built by [modular_baselines] and [stable_baselines3] are
      recorded, with their arguments, in a trace of calls;
    - a parameter tensor is an address in a heap, which records its shape
      and the initialiser last applied to it.  Parameter values are a
      valuation of the addresses, so every statement about [forward]
      holds for the parameters at any point of training.
    A failure inside a library call (torch refusing a negative width or
    learning rate, say) is not part of this development: the statements
    that depend on a call returning take it as a hypothesis. *)

From Stdlib Require Import ZArith QArith String List Lia.
From stdpp Require Import base list.
Import ListNotations.

Local Open Scope string_scope.
Local Open Scope Z_scope.
Local Open Scope list_scope.
#[local] Set Warnings "-register-all".

(** ** gym spaces *)

(** [gym.spaces].  Of a [Box] the script reads [shape] only, of a
    [Discrete] only [n]. *)
Inductive Space : Type :=
| Box (shape : list Z)
| Discrete (n : Z)
| MultiDiscrete (nvec : list Z)
| MultiBinary (n : Z)
| TupleSpace (spaces : list Space)
| DictSpace (spaces : list (string * Space)).

(** [isinstance(space, gym.spaces.Box)] *)
Definition isinstance_Box (space : Space) : bool :=
  match space with Box _ => true | _ => false end.

(** [isinstance(space, gym.spaces.Discrete)] *)
Definition isinstance_Discrete (space : Space) : bool :=
  match space with Discrete _ => true | _ => false end.

(** [space.shape], read by the constructor only behind the [Box] check. *)
Definition Space_shape (space : Space) : list Z :=
  match space with Box shape => shape | _ => [] end.

(** [space.n], read by the constructor only behind the [Discrete] check. *)
Definition Space_n (space : Space) : Z :=
  match space with Discrete n => n | _ => 0 end.

(** ** Exceptions *)

(** [template.format(arg)]: the text is the template with [arg]'s [str]
    in place of the braces; the argument is kept as the object. *)
Inductive Message : Type :=
| Format (template : string) (arg : Space).

Inductive Exception : Type :=
| ValueError (msg : Message)
| IndexError (msg : string).

(** ** Parameters and modules *)

(** The initialiser last applied to a parameter tensor. *)
Inductive Init : Type :=
| DefaultInit                 (* [reset_parameters] of [torch.nn.Linear] *)
| Orthogonal (gain : Q)       (* [torch.nn.init.orthogonal_(_, gain)] *)
| Fill (value : Q).           (* [tensor.data.fill_(value)] *)

Record ParamTensor : Type := mkParamTensor {
  p_shape : list Z;
  p_init : Init
}.

(** [torch.nn.Module], as far as the script builds them.  [weight] and
    [bias] are heap addresses: two modules share a parameter exactly when
    they hold the same address. *)
Inductive Module : Type :=
| Linear (in_features out_features : Z) (weight bias : nat)
| ReLU
| Sequential (children : list Module).

(** [module.parameters()], in registration order. *)
Fixpoint parameters (m : Module) : list nat :=
  match m with
  | Linear _ _ weight bias => [weight; bias]
  | ReLU => []
  | Sequential children =>
      (fix go (ms : list Module) : list nat :=
         match ms with
         | [] => []
         | c :: ms' => parameters c ++ go ms'
         end) children
  end.

(** [torch.optim.Adam(params, lr=, eps=)] *)
Record Optimizer : Type := Adam {
  opt_params : list nat;
  opt_lr : Q;
  opt_eps : Q
}.

Record Policy : Type := mkPolicy {
  observation_space : Space;
  action_space : Space;
  hidden_size : Z;
  ortho_init : bool;
  action_layers : Module;
  value_layers : Module;
  optimizer : Optimizer
}.

(** ** The script's arguments and the calls it makes *)

(** The namedtuple handed to [run]: the parser's options without
    [n_jobs] and [runs_per_job].  Python floats are written as the
    rationals of their decimal literals. *)
Record Args : Type := mkArgs {
  n_envs : Z;
  seed : option Z;
  device : string;
  hiddensize : Z;
  n_steps : Z;
  batch_size : option Z;
  gae_lambda : Q;
  lr : Q;
  gamma : Q;
  ent_coef : Q;
  val_coef : Q;
  rms_prop_eps : Q;
  max_grad_norm : Q;
  total_timesteps : Z;
  log_interval : Z;
  log_dir : option string;
  args_ortho_init : bool
}.

(** An object built by a library call is named by the position of that
    call in the trace. *)
Definition Obj : Type := nat.

Inductive VecEnvCls : Type := SubprocVecEnv | DummyVecEnv.

(** The vectorised environment [make_vec_env] returns. *)
Record VecEnv : Type := mkVecEnv {
  env_obj : Obj;
  env_observation_space : Space;
  env_action_space : Space
}.

Record GeneralBuffer_args : Type := mkGeneralBuffer {
  gb_buffer_size : Z;
  gb_observation_space : Space;
  gb_action_space : Space;
  gb_device : string;
  gb_n_envs : Z
}.

Record OnPolicyCollector_args : Type := mkOnPolicyCollector {
  opc_env : Obj;
  opc_buffer : Obj;
  opc_policy : Policy;
  opc_callbacks : list Obj;
  opc_device : string
}.

Record A2C_args : Type := mkA2C {
  a2c_policy : Policy;
  a2c_rollout_buffer : Obj;
  a2c_rollout_len : Z;
  a2c_collector : Obj;
  a2c_env : Obj;
  a2c_ent_coef : Q;
  a2c_vf_coef : Q;
  a2c_gae_lambda : Q;
  a2c_gamma : Q;
  a2c_batch_size : option Z;
  a2c_max_grad_norm : Q;
  a2c_normalize_advantage : bool;
  a2c_callbacks : list Obj;
  a2c_device : string
}.

(** The library calls of [make_env] and [run], with their arguments. *)
Inductive Call : Type :=
| LogHyperparameters (hyperparameters : Args)
| LogRolloutCallback
| InitLogCallback (interval : Z) (dir : option string)
| LogWeightCallback (file : string)
| LogGradCallback (file : string)
| make_vec_env (env_id : string) (n : Z) (sd : Z) (vec_env_cls : VecEnvCls)
| GeneralBuffer (a : GeneralBuffer_args)
| OnPolicyCollector (a : OnPolicyCollector_args)
| A2C (a : A2C_args)
| learn (model : Obj) (timesteps : Z)
| log_score (dir : option string).

(** ** The world the script runs in *)

(** numpy's global generator as a random tape: the raw draws to come and
    the position of the next one. *)
Record RandomState : Type := mkRandomState {
  np_tape : nat -> Z;
  np_pos : nat
}.

Record World : Type := mkWorld {
  heap : list ParamTensor;           (* the parameter tensors allocated so far *)
  trace : list Call;               (* the library calls made so far *)
  np_random : RandomState;         (* [np.random] *)
  gym_registry : string -> Space * Space
                                   (* spaces of the environment an id names *)
}.

(** ** Computations: world passing with exceptions *)

Definition M (A : Type) : Type := World -> (Exception + A) * World.

Definition ret {A : Type} (a : A) : M A := fun w => (inr a, w).

Definition raise {A : Type} (e : Exception) : M A := fun w => (inl e, w).

Definition bind {A B : Type} (c : M A) (k : A -> M B) : M B :=
  fun w =>
    match c w with
    | (inr a, w') => k a w'
    | (inl e, w') => (inl e, w')
    end.

Declare Scope py_scope.
Delimit Scope py_scope with py.
Notation "x <- c ;; k" := (bind c (fun x => k))
  (at level 100, c at next level, right associativity) : py_scope.
Notation "c ;;; k" := (bind c (fun _ => k))
  (at level 100, right associativity) : py_scope.
Local Open Scope py_scope.

(** [t[i]] on a tuple. *)
Definition tuple_getitem (t : list Z) (i : nat) : M Z :=
  match t !! i with
  | Some x => ret x
  | None => raise (IndexError "tuple index out of range")
  end.

(** Allocation of one parameter tensor; its address is the next free
    one. *)
Definition new_parameter (shape : list Z) (init : Init) : M nat :=
  fun w =>
    (inr (length (heap w)),
     mkWorld (heap w ++ [mkParamTensor shape init]) (trace w)
             (np_random w) (gym_registry w)).

(** In-place re-initialisation of the tensor at an address. *)
Definition set_init (addr : nat) (init : Init) : M unit :=
  fun w =>
    (inr tt,
     mkWorld (alter (fun p => mkParamTensor (p_shape p) init) addr (heap w))
             (trace w) (np_random w) (gym_registry w)).

(** A library call that builds an object: the call joins the trace and
    the object is named after its position. *)
Definition call (c : Call) : M Obj :=
  fun w =>
    (inr (length (trace w)),
     mkWorld (heap w) (trace w ++ [c]) (np_random w) (gym_registry w)).

(** [np.random.randint(low, high)]: the next raw draw, brought into
    [low, high), and the tape moves on. *)
Definition np_random_randint (low high : Z) : M Z :=
  fun w =>
    let g := np_random w in
    (inr (low + np_tape g (np_pos g) mod (high - low)),
     mkWorld (heap w) (trace w)
             (mkRandomState (np_tape g) (S (np_pos g))) (gym_registry w)).

(** ** Building modules *)

(** [torch.nn.Linear(in_features, out_features)]: a weight of shape
    (out_features, in_features) and a bias of shape (out_features,), both
    freshly allocated and default-initialised. *)
Definition torch_nn_Linear (in_features out_features : Z) : M Module :=
  weight <- new_parameter [out_features; in_features] DefaultInit ;;
  bias <- new_parameter [out_features] DefaultInit ;;
  ret (Linear in_features out_features weight bias).

(** [torch.nn.ReLU()] has no parameter. *)
Definition torch_nn_ReLU : M Module := ret ReLU.

(** [module.apply(fn)]: [fn] on every descendant, children first and in
    order, then on the module itself. *)
Fixpoint Module_apply (fn : Module -> M unit) (m : Module) : M unit :=
  match m with
  | Sequential children =>
      (fix go (ms : list Module) : M unit :=
         match ms with
         | [] => ret tt
         | c :: ms' => Module_apply fn c ;;; go ms'
         end) children
  | _ => ret tt
  end ;;;
  fn m.

(** [ActorCriticCnnPolicy.init_weights(module, gain)] of
    stable_baselines3: a linear module gets an orthogonal weight of the
    given gain and a zero bias; any other module is left as it is. *)
Definition init_weights (gain : Q) (module : Module) : M unit :=
  match module with
  | Linear _ _ weight bias =>
      set_init weight (Orthogonal gain) ;;;
      set_init bias (Fill 0%Q)
  | _ => ret tt
  end.

(** The loop [for module, gain in module_gains.items()] of the
    constructor. *)
Fixpoint apply_gains (module_gains : list (Module * Q)) : M unit :=
  match module_gains with
  | [] => ret tt
  | (module, gain) :: rest =>
      Module_apply (init_weights gain) module ;;;
      apply_gains rest
  end.

(** ** [Policy.__init__] *)

Definition __init__ (observation_space action_space : Space)
    (hidden_size : Z) (lr rms_prob_eps : Q) (ortho_init : bool) : M Policy :=
  if negb (isinstance_Box observation_space) then
    raise (ValueError (Format "Unsupported observation space {}"
                              observation_space))
  else if negb (isinstance_Discrete action_space) then
    raise (ValueError (Format "Unsupported action space {}"
                              observation_space))
  else
    a1 <- (d <- tuple_getitem (Space_shape observation_space) 0 ;;
           torch_nn_Linear d hidden_size) ;;
    a2 <- torch_nn_ReLU ;;
    a3 <- torch_nn_Linear hidden_size hidden_size ;;
    a4 <- torch_nn_ReLU ;;
    a5 <- torch_nn_Linear hidden_size (Space_n action_space) ;;
    let action_layers := Sequential [a1; a2; a3; a4; a5] in
    v1 <- (d <- tuple_getitem (Space_shape observation_space) 0 ;;
           torch_nn_Linear d hidden_size) ;;
    v2 <- torch_nn_ReLU ;;
    v3 <- torch_nn_Linear hidden_size hidden_size ;;
    v4 <- torch_nn_ReLU ;;
    v5 <- torch_nn_Linear hidden_size 1 ;;
    let value_layers := Sequential [v1; v2; v3; v4; v5] in
    (if ortho_init then
       apply_gains [(action_layers, (1 # 100)%Q); (value_layers, 1%Q)]
     else ret tt) ;;;
    ret (mkPolicy observation_space action_space hidden_size ortho_init
                  action_layers value_layers
                  (Adam (parameters action_layers ++ parameters value_layers)
                        lr rms_prob_eps)).

(** ** [make_env] and [run] *)

Definition make_env (n_envs : Z) (seed : Z) (envname : string) : M VecEnv :=
  env <- call (make_vec_env envname n_envs seed SubprocVecEnv) ;;
  fun w =>
    (inr (mkVecEnv env (fst (gym_registry w envname))
                   (snd (gym_registry w envname))), w).

Definition run (args : Args) : M Obj :=
  seed <- match seed args with
          | None => np_random_randint 0 (2 ^ 16)
          | Some s => ret s
          end ;;
  hyper_callback <- call (LogHyperparameters args) ;;
  rollout_callback <- call LogRolloutCallback ;;
  learn_callback <- call (InitLogCallback (log_interval args) (log_dir args)) ;;
  weight_callback <- call (LogWeightCallback "weights.json") ;;
  grad_callback <- call (LogGradCallback "grads.json") ;;
  vecenv <- make_env (n_envs args) seed "LunarLander-v2" ;;
  policy <- __init__ (env_observation_space vecenv) (env_action_space vecenv)
                     (hiddensize args) (lr args) (rms_prop_eps args)
                     (args_ortho_init args) ;;
  buffer <- call (GeneralBuffer
                    (mkGeneralBuffer (n_steps args + 1)
                                     (env_observation_space vecenv)
                                     (env_action_space vecenv)
                                     (device args) (n_envs args))) ;;
  collector <- call (OnPolicyCollector
                       (mkOnPolicyCollector (env_obj vecenv) buffer policy
                                            [rollout_callback] (device args))) ;;
  model <- call (A2C (mkA2C policy buffer (n_steps args) collector
                            (env_obj vecenv) (ent_coef args) (val_coef args)
                            (gae_lambda args) (gamma args) (batch_size args)
                            (max_grad_norm args) false
                            [learn_callback; weight_callback; grad_callback;
                             hyper_callback]
                            (device args))) ;;
  call (learn model (total_timesteps args)) ;;;
  call (log_score (log_dir args)).

(** ** The torch operations the policy calls *)

(** Tensors, the state of torch's global random generator, and the
    operations behind the modules and behind
    [torch.distributions.categorical.Categorical].  The laws are the
    shape rules of the torch documentation: [float] and [relu] keep the
    shape, [linear] acts on the last dimension, and a categorical
    distribution over logits has one outcome per leading index of the
    logits. *)
Class Torch : Type := {
  Tensor : Type;
  Generator : Type;
  shape : Tensor -> list Z;
  tensor_float : Tensor -> Tensor;                      (* [x.float()] *)
  F_linear : Tensor -> Tensor -> Tensor -> Tensor;      (* input, weight, bias *)
  F_relu : Tensor -> Tensor;
  categorical_sample : Tensor -> Generator -> Tensor * Generator;
  categorical_log_prob : Tensor -> Tensor -> Tensor;    (* logits, value *)
  categorical_entropy : Tensor -> Tensor;
  shape_float : forall x, shape (tensor_float x) = shape x;
  shape_relu : forall x, shape (F_relu x) = shape x;
  shape_linear : forall x w b,
    removelast (shape (F_linear x w b)) = removelast (shape x);
  shape_sample : forall l g,
    shape (fst (categorical_sample l g)) = removelast (shape l)
}.

Section PolicyCalls.

Context {torch : Torch}.

(** The current values of the parameter tensors, by heap address. *)
Variable theta : nat -> Tensor.

(** [module(x)] *)
Fixpoint Module_call (m : Module) (x : Tensor) : Tensor :=
  match m with
  | Linear _ _ weight bias => F_linear x (theta weight) (theta bias)
  | ReLU => F_relu x
  | Sequential children =>
      (fix go (ms : list Module) (y : Tensor) : Tensor :=
         match ms with
         | [] => y
         | c :: ms' => go ms' (Module_call c y)
         end) children x
  end.

(** [Categorical(logits=...)] and its three methods. *)
Record Distribution : Type := Categorical { logits : Tensor }.

Definition sample (dist : Distribution) (g : Generator) : Tensor * Generator :=
  categorical_sample (logits dist) g.

Definition log_prob (dist : Distribution) (value : Tensor) : Tensor :=
  categorical_log_prob (logits dist) value.

Definition entropy (dist : Distribution) : Tensor :=
  categorical_entropy (logits dist).

Definition _preprocess (self : Policy) (tensor : Tensor) : Tensor :=
  tensor_float tensor.

Definition _forward (self : Policy) (tensor : Tensor) : Tensor * Tensor :=
  let processed_tensor := _preprocess self tensor in
  let act_logit := Module_call (action_layers self) processed_tensor in
  let values := Module_call (value_layers self) processed_tensor in
  (act_logit, values).

(** [forward]: the only place that draws from the generator. *)
Definition forward (self : Policy) (tensor : Tensor) (g : Generator)
    : (Tensor * Tensor * Tensor) * Generator :=
  let '(act_logit, values) := _forward self tensor in
  let dist := Categorical act_logit in
  let '(action, g') := sample dist g in
  let log_prob := log_prob dist action in
  ((action, values, log_prob), g').

Definition evaluate_actions (self : Policy) (observation action : Tensor)
    : Tensor * Tensor * Tensor :=
  let '(act_logit, values) := _forward self observation in
  let dist := Categorical act_logit in
  let log_prob := log_prob dist action in
  let entropy := entropy dist in
  (values, log_prob, entropy).

End PolicyCalls.

(** ** Concrete worlds and a concrete reading of the torch operations *)

(** The operations read on shapes alone: a tensor is its shape, and the
    generator counts the draws made.  It lets the definitions above run
    on concrete inputs. *)
#[local] Instance ShapeTorch : Torch := {|
  Tensor := list Z;
  Generator := nat;
  shape := fun x => x;
  tensor_float := fun x => x;
  F_linear := fun x w _ => removelast x ++ [hd 0 w];
  F_relu := fun x => x;
  categorical_sample := fun l g => (removelast l, S g);
  categorical_log_prob := fun l _ => removelast l;
  categorical_entropy := fun l => removelast l;
  shape_float := fun _ => eq_refl;
  shape_relu := fun _ => eq_refl;
  shape_linear := fun x w _ => removelast_last (removelast x) (hd 0 w);
  shape_sample := fun _ _ => eq_refl
|}.

(** The shapes the parameters were allocated with, as a valuation. *)
Definition heap_shapes (w : World) (addr : nat) : list Z :=
  match heap w !! addr with
  | Some p => p_shape p
  | None => []
  end.

(** A world in which nothing has happened yet; the registry knows the
    spaces gym gives LunarLander-v2 and treats any other id alike. *)
Definition world0 : World :=
  mkWorld [] [] (mkRandomState (fun k => 77777 + Z.of_nat k) 0%nat)
          (fun _ => (Box [8], Discrete 4)).

(** The parser's defaults, with [ortho_init] off as without the flag. *)
Definition default_args : Args :=
  mkArgs 8 None "cpu" 128 5 None 1%Q (83 # 100000)%Q (995 # 1000)%Q
         (5 # 100)%Q (25 # 100)%Q (1 # 100000)%Q (5 # 10)%Q 400000 500 None
         false.

(** ** Vocabulary for the statements *)

(** [module.children()] *)
Definition children (m : Module) : list Module :=
  match m with Sequential cs => cs | _ => [] end.

(** The initialiser recorded for the tensor at an address. *)
Definition init_at (w : World) (addr : nat) : option Init :=
  p_init <$> heap w !! addr.

(** The calls a computation added to the trace, and among them the
    constructions of buffers, of trainers and of environments. *)
Definition calls_since (w w' : World) : list Call :=
  drop (length (trace w)) (trace w').

Definition GeneralBuffer_calls (cs : list Call) : list GeneralBuffer_args :=
  flat_map (fun c => match c with GeneralBuffer a => [a] | _ => [] end) cs.

Definition A2C_calls (cs : list Call) : list A2C_args :=
  flat_map (fun c => match c with A2C a => [a] | _ => [] end) cs.

Definition make_vec_env_seeds (cs : list Call) : list Z :=
  flat_map (fun c => match c with make_vec_env _ _ sd _ => [sd] | _ => [] end)
           cs.

(** One branch as the constructor lays it out from address [base] on:
    three linear layers with a ReLU between them. *)
Definition branch (base : nat) (d hs out : Z) : Module :=
  Sequential [Linear d hs base (1 + base); ReLU;
              Linear hs hs (2 + base) (3 + base); ReLU;
              Linear hs out (4 + base) (5 + base)].

(** The six tensors of a branch, weights initialised by [wi] and biases
    by [bi]. *)
Definition branch_heap (d hs out : Z) (wi bi : Init) : list ParamTensor :=
  [mkParamTensor [hs; d] wi; mkParamTensor [hs] bi;
   mkParamTensor [hs; hs] wi; mkParamTensor [hs] bi;
   mkParamTensor [out; hs] wi; mkParamTensor [out] bi].

Definition weight_init (gain : Q) (ortho : bool) : Init :=
  if ortho then Orthogonal gain else DefaultInit.

Definition bias_init (ortho : bool) : Init :=
  if ortho then Fill 0%Q else DefaultInit.

(** The four ways through the constructor. *)
Inductive init_case (obs act : Space) : Prop :=
| case_bad_observation : isinstance_Box obs = false -> init_case obs act
| case_bad_action :
    isinstance_Box obs = true -> isinstance_Discrete act = false ->
    init_case obs act
| case_empty_shape n : obs = Box [] -> act = Discrete n -> init_case obs act
| case_built d sh n :
    obs = Box (d :: sh) -> act = Discrete n -> init_case obs act.

(** The seed [run] hands to [make_env], and numpy's generator after
    [run] has chosen it. *)
Definition seed_passed (args : Args) (w : World) : Z :=
  match seed args with
  | Some s => s
  | None => 0 + np_tape (np_random w) (np_pos (np_random w)) mod (2 ^ 16 - 0)
  end.

Definition np_random_after (args : Args) (w : World) : RandomState :=
  match seed args with
  | Some _ => np_random w
  | None => mkRandomState (np_tape (np_random w)) (S (np_pos (np_random w)))
  end.

(** The calls of [run] up to the creation of the environment, and those
    after the policy is built; [t0] is the length of the trace when [run]
    starts, so that [k + t0] names the object of the k-th call. *)
Definition run_prefix (args : Args) (sd : Z) : list Call :=
  [LogHyperparameters args; LogRolloutCallback;
   InitLogCallback (log_interval args) (log_dir args);
   LogWeightCallback "weights.json"; LogGradCallback "grads.json";
   make_vec_env "LunarLander-v2" (n_envs args) sd SubprocVecEnv].

Definition run_suffix (args : Args) (t0 : nat) (obs act : Space)
    (policy : Policy) : list Call :=
  [GeneralBuffer (mkGeneralBuffer (n_steps args + 1) obs act (device args)
                                  (n_envs args));
   OnPolicyCollector (mkOnPolicyCollector (5 + t0)%nat (6 + t0)%nat policy
                                          [(1 + t0)%nat] (device args));
   A2C (mkA2C policy (6 + t0)%nat (n_steps args) (7 + t0)%nat (5 + t0)%nat
              (ent_coef args) (val_coef args) (gae_lambda args) (gamma args)
              (batch_size args) (max_grad_norm args) false
              [(2 + t0)%nat; (3 + t0)%nat; (4 + t0)%nat; t0] (device args));
   learn (8 + t0)%nat (total_timesteps args);
   log_score (log_dir args)].

(** ** Vocabulary for the further properties *)

(** [LunarA2Crunner.single_run] *)
Definition single_run (args : Args) : M Obj := run args.

(** The shapes of the tensors on the heap, by address. *)
Definition heap_shape_list (w : World) : list (list Z) :=
  p_shape <$> heap w.

Definition OnPolicyCollector_calls (cs : list Call)
    : list OnPolicyCollector_args :=
  flat_map (fun c => match c with OnPolicyCollector a => [a] | _ => [] end) cs.

Definition learn_calls (cs : list Call) : list (Obj * Z) :=
  flat_map (fun c => match c with learn m n => [(m, n)] | _ => [] end) cs.

(** The world in which [run] builds the policy: callbacks and environment
    are there, the seed is chosen. *)
Definition world_before_policy (args : Args) (w : World) : World :=
  mkWorld (heap w) (trace w ++ run_prefix args (seed_passed args w))
          (np_random_after args w) (gym_registry w).

(** The policy the constructor returns for a box with first dimension
    [d] and [n] actions, on a heap of [base] tensors. *)
Definition built_policy (base : nat) (d : Z) (sh : list Z) (n hs : Z)
    (lr eps : Q) (oi : bool) : Policy :=
  mkPolicy (Box (d :: sh)) (Discrete n) hs oi
           (branch base d hs n) (branch (6 + base) d hs 1)
           (Adam (seq base 12) lr eps).

(** What re-initialisation may change: initialisers, and nothing else. *)
Definition reinitialised (touched : list nat) (w w' : World) : Prop :=
  heap_shape_list w' = heap_shape_list w
  /\ trace w' = trace w
  /\ np_random w' = np_random w
  /\ gym_registry w' = gym_registry w
  /\ forall a, ~ In a touched -> heap w' !! a = heap w !! a.

Section ParameterUpdates.

Context {torch : Torch}.

(** The valuation after the tensor at [addr] is overwritten with [t], as
    an optimizer step does to one parameter. *)
Definition with_param (theta : nat -> Tensor) (addr : nat) (t : Tensor)
    : nat -> Tensor :=
  fun a => if Nat.eqb a addr then t else theta a.

End ParameterUpdates.

(** * Properties *)

(** ** The constructor, case by case *)

Lemma alter_at {A} (f : A -> A) (h l : list A) (k n : nat) :
  n = (k + length h)%nat -> alter f n (h ++ l) = h ++ alter f k l.
Proof. intros ->. rewrite Nat.add_comm. apply alter_app_r. Qed.

Lemma lookup_at {A} (h l : list A) (k n : nat) :
  n = (k + length h)%nat -> (h ++ l) !! n = l !! k.
Proof.
  intros ->. rewrite lookup_app_r by lia. f_equal. lia.
Qed.

Lemma torch_nn_Linear_run i o h t g r :
  torch_nn_Linear i o (mkWorld h t g r) =
  (inr (Linear i o (length h) (S (length h))),
   mkWorld (h ++ [mkParamTensor [o; i] DefaultInit;
                  mkParamTensor [o] DefaultInit]) t g r).
Proof.
  unfold torch_nn_Linear, bind, new_parameter, ret. cbn.
  rewrite length_app, Nat.add_1_r, <- app_assoc. reflexivity.
Qed.

Ltac alter_heap k :=
  match goal with
  | |- context [alter ?f ?n (?h ++ ?l)] =>
      rewrite (alter_at f h l k n) by reflexivity;
      cbn [alter list_alter p_shape]
  end.

(** A box with at least one dimension and a discrete action space: the
    policy is built, twelve tensors are allocated, nothing else changes. *)
Lemma init_built d sh n hs lr eps oi w :
  __init__ (Box (d :: sh)) (Discrete n) hs lr eps oi w =
  (inr (mkPolicy (Box (d :: sh)) (Discrete n) hs oi
          (branch (length (heap w)) d hs n)
          (branch (6 + length (heap w)) d hs 1)
          (Adam (seq (length (heap w)) 12) lr eps)),
   mkWorld (heap w
              ++ branch_heap d hs n (weight_init (1 # 100)%Q oi) (bias_init oi)
              ++ branch_heap d hs 1 (weight_init 1%Q oi) (bias_init oi))
           (trace w) (np_random w) (gym_registry w)).
Proof.
  destruct w as [h t g r].
  unfold __init__.
  cbn [isinstance_Box isinstance_Discrete negb Space_shape Space_n].
  unfold tuple_getitem. cbn [lookup list_lookup].
  unfold torch_nn_ReLU.
  repeat (unfold bind at 1; cbn [ret]; try rewrite torch_nn_Linear_run).
  rewrite ?length_app. cbn [length]. rewrite <- ?app_assoc. cbn [app].
  repeat match goal with
         | |- context [(?a + 2)%nat] =>
             replace (a + 2)%nat with (S (S a)) by lia
         end.
  destruct oi; [| reflexivity].
  unfold apply_gains, Module_apply, init_weights.
  repeat (unfold bind at 1;
          cbn [ret set_init heap trace np_random gym_registry]).
  alter_heap 0%nat; alter_heap 1%nat; alter_heap 2%nat; alter_heap 3%nat;
  alter_heap 4%nat; alter_heap 5%nat; alter_heap 6%nat; alter_heap 7%nat;
  alter_heap 8%nat; alter_heap 9%nat; alter_heap 10%nat; alter_heap 11%nat.
  reflexivity.
Qed.

(** A box without dimensions passes both checks; reading [shape[0]] then
    fails, before the first layer exists. *)
Lemma init_empty_shape n hs lr eps oi w :
  __init__ (Box []) (Discrete n) hs lr eps oi w =
  (inl (IndexError "tuple index out of range"), w).
Proof. reflexivity. Qed.

Lemma init_rejects_observation obs act hs lr eps oi w :
  isinstance_Box obs = false ->
  __init__ obs act hs lr eps oi w =
  (inl (ValueError (Format "Unsupported observation space {}" obs)), w).
Proof. intros H. unfold __init__. rewrite H. reflexivity. Qed.

Lemma init_rejects_action obs act hs lr eps oi w :
  isinstance_Box obs = true ->
  isinstance_Discrete act = false ->
  __init__ obs act hs lr eps oi w =
  (inl (ValueError (Format "Unsupported action space {}" obs)), w).
Proof. intros Ho Ha. unfold __init__. rewrite Ho, Ha. reflexivity. Qed.

Lemma init_cases obs act : init_case obs act.
Proof.
  destruct obs as [[| d sh] | | | | |];
    try (apply case_bad_observation; reflexivity);
    destruct act as [| n | | | |];
    try (apply case_bad_action; reflexivity).
  - eapply case_empty_shape; reflexivity.
  - eapply case_built; reflexivity.
Qed.

(** A successful construction had a box with a first dimension and a
    discrete action space. *)
Lemma init_success_inv obs act hs lr eps oi w self w' :
  __init__ obs act hs lr eps oi w = (inr self, w') ->
  exists d sh n, obs = Box (d :: sh) /\ act = Discrete n.
Proof.
  destruct (init_cases obs act) as [Ho | Ho Ha | n -> -> | d sh n -> ->].
  - rewrite init_rejects_observation by assumption. discriminate.
  - rewrite init_rejects_action by assumption. discriminate.
  - rewrite init_empty_shape. discriminate.
  - intros _. eauto.
Qed.

(** The constructor touches the heap only. *)
Lemma init_frame obs act hs lr eps oi w res w' :
  __init__ obs act hs lr eps oi w = (res, w') ->
  trace w' = trace w /\ np_random w' = np_random w
  /\ gym_registry w' = gym_registry w.
Proof.
  destruct (init_cases obs act) as [Ho | Ho Ha | n -> -> | d sh n -> ->].
  - rewrite init_rejects_observation by assumption.
    intros [= <- <-]. auto.
  - rewrite init_rejects_action by assumption. intros [= <- <-]. auto.
  - rewrite init_empty_shape. intros [= <- <-]. auto.
  - rewrite init_built. intros [= <- <-]. auto.
Qed.

(** ** Validation of the spaces *)

(** C1, the claim as stated fails: a [Box] observation space of empty
    shape with a [Discrete] action space passes both checks, and the
    constructor then raises [IndexError] at [shape[0]]. *)
Lemma C1_box_without_dimension_raises :
  isinstance_Box (Box []) = true
  /\ isinstance_Discrete (Discrete 4) = true
  /\ __init__ (Box []) (Discrete 4) 128 (1 # 1000)%Q (1 # 100000)%Q true
              world0
     = (inl (IndexError "tuple index out of range"), world0).
Proof. repeat split. Qed.

(** C1, amended: an observation space that is not a [Box], or an action
    space that is not [Discrete], makes the constructor raise the
    [ValueError] for an unsupported space, and this failure leaves the
    world, and with it the heap of tensors, as it was before the call;
    with a [Box] observation space and a [Discrete] action space the
    constructor does not raise this error, whatever else it does. *)
Theorem C1_space_validation obs act hs lr eps oi w :
  (isinstance_Box obs && isinstance_Discrete act = false ->
   exists msg, __init__ obs act hs lr eps oi w = (inl (ValueError msg), w))
  /\ (isinstance_Box obs = true -> isinstance_Discrete act = true ->
      forall s w',
        __init__ obs act hs lr eps oi w
        <> (inl (ValueError (Format "Unsupported observation space {}" s)),
            w')
        /\ __init__ obs act hs lr eps oi w
           <> (inl (ValueError (Format "Unsupported action space {}" s)),
               w')).
Proof.
  split.
  - intros H. destruct (isinstance_Box obs) eqn:Ho.
    + rewrite init_rejects_action by (simpl in H; assumption). eauto.
    + rewrite init_rejects_observation by assumption. eauto.
  - intros Ho Ha s w'.
    destruct (init_cases obs act) as [Ho' | Ho' Ha' | n -> -> | d sh n -> ->];
      try congruence.
    + rewrite init_empty_shape. split; discriminate.
    + rewrite init_built. split; discriminate.
Qed.

Lemma C1_space_validation_witness :
  (exists msg,
      __init__ (MultiBinary 8) (Discrete 4) 128 (1 # 1000)%Q (1 # 100000)%Q
               true world0 = (inl (ValueError msg), world0))
  /\ (exists msg,
      __init__ (Box [8]) (Box [2]) 128 (1 # 1000)%Q (1 # 100000)%Q
               true world0 = (inl (ValueError msg), world0))
  /\ __init__ (Box [8]) (Discrete 4) 128 (1 # 1000)%Q (1 # 100000)%Q
              true world0
     <> (inl (ValueError (Format "Unsupported observation space {}"
                                 (Box [8]))), world0)
  /\ __init__ (Box []) (Discrete 4) 128 (1 # 1000)%Q (1 # 100000)%Q
              true world0
     <> (inl (ValueError (Format "Unsupported action space {}" (Box []))),
         world0).
Proof.
  split; [| split; [| split]].
  - apply (proj1 (C1_space_validation (MultiBinary 8) (Discrete 4) 128
                    (1 # 1000)%Q (1 # 100000)%Q true world0)).
    reflexivity.
  - apply (proj1 (C1_space_validation (Box [8]) (Box [2]) 128
                    (1 # 1000)%Q (1 # 100000)%Q true world0)).
    reflexivity.
  - apply (proj1 (proj2 (C1_space_validation (Box [8]) (Discrete 4) 128
                           (1 # 1000)%Q (1 # 100000)%Q true world0)
                    eq_refl eq_refl (Box [8]) world0)).
  - apply (proj2 (proj2 (C1_space_validation (Box []) (Discrete 4) 128
                           (1 # 1000)%Q (1 # 100000)%Q true world0)
                    eq_refl eq_refl (Box []) world0)).
Defined.

(** C9: when the observation space is a [Box] and the action space is
    not [Discrete], the [ValueError] raised carries the text for an
    action space formatted with the observation space; the action space
    does not occur in it, so any two rejected action spaces give the same
    error. *)
Theorem C9_action_error_names_observation_space obs act hs lr eps oi w :
  isinstance_Box obs = true ->
  isinstance_Discrete act = false ->
  __init__ obs act hs lr eps oi w
  = (inl (ValueError (Format "Unsupported action space {}" obs)), w)
  /\ forall act', isinstance_Discrete act' = false ->
       __init__ obs act' hs lr eps oi w = __init__ obs act hs lr eps oi w.
Proof.
  intros Ho Ha. split.
  - apply init_rejects_action; assumption.
  - intros act' Ha'. rewrite !init_rejects_action by assumption. reflexivity.
Qed.

Lemma C9_action_error_witness :
  __init__ (Box [8]) (Box [2]) 128 (1 # 1000)%Q (1 # 100000)%Q true world0
  = (inl (ValueError (Format "Unsupported action space {}" (Box [8]))),
     world0).
Proof.
  apply (C9_action_error_names_observation_space (Box [8]) (Box [2]) 128
           (1 # 1000)%Q (1 # 100000)%Q true world0); reflexivity.
Defined.

(** ** Orthogonal initialisation *)

Ltac read_heap k :=
  unfold init_at; cbn [heap];
  rewrite (lookup_at _ _ k) by reflexivity; reflexivity.

(** C4, the claim as stated fails: with the option on, the first layer
    of the actor branch, which is not its final layer, is initialised with
    gain 0.01 like the final one, and the first layer of the critic branch
    with gain 1; neither keeps the default initialisation. *)
Lemma C4_first_layers_are_reinitialised :
  exists self w',
    __init__ (Box [8]) (Discrete 4) 128 (1 # 1000)%Q (1 # 100000)%Q true
             world0 = (inr self, w')
    /\ children (action_layers self) !! 0%nat = Some (Linear 8 128 0 1)
    /\ last (children (action_layers self)) = Some (Linear 128 4 4 5)
    /\ init_at w' 0 = Some (Orthogonal (1 # 100)%Q)
    /\ children (value_layers self) !! 0%nat = Some (Linear 8 128 6 7)
    /\ init_at w' 6 = Some (Orthogonal 1%Q)
    /\ init_at w' 0 <> Some DefaultInit
    /\ init_at w' 6 <> Some DefaultInit.
Proof.
  eexists _, _. split; [apply init_built |].
  repeat split; discriminate.
Qed.

(** C4, amended: with the option on, every linear layer of the actor
    branch has its weight initialised orthogonally with gain 0.01 and
    every linear layer of the critic branch with gain 1, all biases
    being set to zero; with the option off, every weight and bias keeps
    the default initialisation.  Tensors allocated before the call are
    not touched. *)
Theorem C4_orthogonal_init obs act hs lr eps oi w self w' :
  __init__ obs act hs lr eps oi w = (inr self, w') ->
  (forall i o wt b,
      In (Linear i o wt b) (children (action_layers self)) ->
      init_at w' wt
      = Some (if oi then Orthogonal (1 # 100)%Q else DefaultInit)
      /\ init_at w' b = Some (if oi then Fill 0%Q else DefaultInit))
  /\ (forall i o wt b,
      In (Linear i o wt b) (children (value_layers self)) ->
      init_at w' wt = Some (if oi then Orthogonal 1%Q else DefaultInit)
      /\ init_at w' b = Some (if oi then Fill 0%Q else DefaultInit))
  /\ (forall addr, (addr < length (heap w))%nat ->
      heap w' !! addr = heap w !! addr).
Proof.
  intros H.
  destruct (init_success_inv _ _ _ _ _ _ _ _ _ H) as (d & sh & n & -> & ->).
  rewrite init_built in H. injection H as <- <-.
  cbn [action_layers value_layers children branch].
  split; [| split].
  - intros i o wt b Hin.
    repeat (destruct Hin as [Heq | Hin]; [try discriminate Heq |]);
      try contradiction; injection Heq as <- <- <- <-; split.
    + read_heap 0%nat.
    + read_heap 1%nat.
    + read_heap 2%nat.
    + read_heap 3%nat.
    + read_heap 4%nat.
    + read_heap 5%nat.
  - intros i o wt b Hin.
    repeat (destruct Hin as [Heq | Hin]; [try discriminate Heq |]);
      try contradiction; injection Heq as <- <- <- <-; split.
    + read_heap 6%nat.
    + read_heap 7%nat.
    + read_heap 8%nat.
    + read_heap 9%nat.
    + read_heap 10%nat.
    + read_heap 11%nat.
  - intros addr Hlt. cbn [heap]. apply lookup_app_l. assumption.
Qed.

Lemma C4_orthogonal_init_witness :
  init_at (snd (__init__ (Box [8]) (Discrete 4) 128 (1 # 1000)%Q
                         (1 # 100000)%Q true world0)) 2
  = Some (Orthogonal (1 # 100)%Q)
  /\ init_at (snd (__init__ (Box [8]) (Discrete 4) 128 (1 # 1000)%Q
                            (1 # 100000)%Q false world0)) 2
     = Some DefaultInit.
Proof.
  split.
  - rewrite init_built.
    refine (proj1 (proj1 (C4_orthogonal_init _ _ _ _ _ _ _ _ _
                            (init_built 8 [] 4 128 (1 # 1000)%Q
                                        (1 # 100000)%Q true world0))
                         128 128 2%nat 3%nat _)).
    cbn. auto.
  - rewrite init_built.
    refine (proj1 (proj1 (C4_orthogonal_init _ _ _ _ _ _ _ _ _
                            (init_built 8 [] 4 128 (1 # 1000)%Q
                                        (1 # 100000)%Q false world0))
                         128 128 2%nat 3%nat _)).
    cbn. auto.
Defined.

(** ** Modules as functions of their own parameters *)

(** Induction on modules that reaches the children of a container. *)
Lemma Module_nested_ind (P : Module -> Prop) :
  (forall i o wt b, P (Linear i o wt b)) ->
  P ReLU ->
  (forall cs, Forall P cs -> P (Sequential cs)) ->
  forall m, P m.
Proof.
  intros HL HR HS.
  refine (fix IH (m : Module) : P m :=
            match m with
            | Linear i o wt b => HL i o wt b
            | ReLU => HR
            | Sequential cs =>
                HS cs ((fix go (ms : list Module) : Forall P ms :=
                          match ms with
                          | [] => @List.Forall_nil _ P
                          | c :: ms' => @List.Forall_cons _ P c ms' (IH c) (go ms')
                          end) cs)
            end).
Qed.

Lemma parameters_Sequential_cons c cs :
  parameters (Sequential (c :: cs)) = parameters c ++ parameters (Sequential cs).
Proof. reflexivity. Qed.

Lemma parameters_branch base d hs out :
  parameters (branch base d hs out) = seq base 6.
Proof. reflexivity. Qed.

Section PolicyProperties.

Context {torch : Torch}.

Lemma Module_call_Sequential_cons theta c cs x :
  Module_call theta (Sequential (c :: cs)) x
  = Module_call theta (Sequential cs) (Module_call theta c x).
Proof. reflexivity. Qed.

(** The output of a module depends on the valuation only at the
    module's own parameters. *)
Lemma Module_call_ext theta theta' m :
  (forall a, In a (parameters m) -> theta' a = theta a) ->
  forall x, Module_call theta' m x = Module_call theta m x.
Proof.
  induction m as [i o wt b | | cs IH] using Module_nested_ind; intros H x.
  - cbn. rewrite !H by (cbn; auto). reflexivity.
  - reflexivity.
  - revert x. induction IH as [| c cs Hc _ IHcs]; intros x; [reflexivity |].
    rewrite !Module_call_Sequential_cons.
    rewrite parameters_Sequential_cons in H.
    rewrite Hc by (intros a Ha; apply H, in_or_app; auto).
    apply IHcs. intros a Ha. apply H, in_or_app. auto.
Qed.

(** Modules act on the last dimension: the leading ones are those of the
    input. *)
Lemma Module_call_shape theta m :
  forall x, removelast (shape (Module_call theta m x)) = removelast (shape x).
Proof.
  induction m as [i o wt b | | cs IH] using Module_nested_ind; intros x.
  - apply shape_linear.
  - cbn. rewrite shape_relu. reflexivity.
  - revert x. induction IH as [| c cs Hc _ IHcs]; intros x; [reflexivity |].
    rewrite Module_call_Sequential_cons, IHcs. apply Hc.
Qed.

(** ** Acting *)

(** C2: for a policy the constructor built, [forward] takes the logits
    from the actor branch and the value from the critic branch, both
    applied to the observations cast to float; the branches are three-layer
    feed-forward networks, the critic's ending in a single output, and no
    parameter belongs to both, so the logits do not change with the
    critic's parameters nor the value with the actor's; the action is one
    draw from the categorical distribution over the logits, with one
    entry per leading index of the observation batch; what is returned is
    that action, the value, and the log-probability of that action under
    that same distribution. *)
Theorem C2_forward_acts obs act hs lr eps oi w self w'
    (theta : nat -> Tensor) (x : Tensor) (g : Generator) :
  __init__ obs act hs lr eps oi w = (inr self, w') ->
  let act_logit := Module_call theta (action_layers self) (tensor_float x) in
  let values := Module_call theta (value_layers self) (tensor_float x) in
  let dist := Categorical act_logit in
  let action := fst (sample dist g) in
  forward theta self x g
  = ((action, values, log_prob dist action), snd (sample dist g))
  /\ (exists base d n,
         act = Discrete n
         /\ action_layers self = branch base d hs n
         /\ value_layers self = branch (6 + base) d hs 1)
  /\ (forall a, In a (parameters (action_layers self)) ->
                ~ In a (parameters (value_layers self)))
  /\ (forall theta',
         (forall a, In a (parameters (action_layers self)) ->
                    theta' a = theta a) ->
         Module_call theta' (action_layers self) (tensor_float x) = act_logit)
  /\ (forall theta',
         (forall a, In a (parameters (value_layers self)) ->
                    theta' a = theta a) ->
         Module_call theta' (value_layers self) (tensor_float x) = values)
  /\ shape action = removelast (shape x).
Proof.
  intros H act_logit values dist action.
  split; [| split; [| split; [| split; [| split]]]].
  - unfold forward, _forward, _preprocess.
    fold act_logit. fold values. fold dist.
    subst action. destruct (sample dist g) as [a g']. reflexivity.
  - destruct (init_success_inv _ _ _ _ _ _ _ _ _ H) as (d & sh & n & -> & ->).
    rewrite init_built in H. injection H as <- _.
    exists (length (heap w)), d, n. auto.
  - destruct (init_success_inv _ _ _ _ _ _ _ _ _ H) as (d & sh & n & -> & ->).
    rewrite init_built in H. injection H as <- _.
    cbn [action_layers value_layers].
    rewrite !parameters_branch.
    intros a Ha Hv. apply in_seq in Ha. apply in_seq in Hv. lia.
  - intros theta' Hagree. apply Module_call_ext. assumption.
  - intros theta' Hagree. apply Module_call_ext. assumption.
  - subst action. unfold sample. rewrite shape_sample.
    subst dist. cbn [logits]. subst act_logit.
    rewrite Module_call_shape, shape_float. reflexivity.
Qed.

(** ** Evaluating given actions *)

(** C3: [evaluate_actions] computes logits and value from the
    observations as [forward] does, and returns the value, the
    log-probability of the actions it was given under the distribution
    over those logits, and the entropy of that distribution.  It takes no
    generator and draws nothing: given the action [forward] drew, it
    returns the value and the log-probability [forward] returned. *)
Theorem C3_evaluate_actions_evaluates (theta : nat -> Tensor) self
    (observation action : Tensor) :
  let act_logit :=
    Module_call theta (action_layers self) (tensor_float observation) in
  let values :=
    Module_call theta (value_layers self) (tensor_float observation) in
  let dist := Categorical act_logit in
  evaluate_actions theta self observation action
  = (values, log_prob dist action, entropy dist)
  /\ forall g : Generator,
      let '((sampled, v, lp), _) := forward theta self observation g in
      evaluate_actions theta self observation sampled = (v, lp, entropy dist).
Proof.
  intros act_logit values dist. split; [reflexivity |].
  intros g. unfold forward, _forward, _preprocess.
  fold act_logit. fold values. fold dist.
  destruct (sample dist g) as [sampled g']. reflexivity.
Qed.

(** ** The value does not depend on the actions *)

(** C8: the value [evaluate_actions] returns is the same for any two
    action batches, and is the value [forward] returns on the same
    observations. *)
Theorem C8_value_independent_of_actions (theta : nat -> Tensor) self
    (observation a1 a2 : Tensor) (g : Generator) :
  let '(v1, _, _) := evaluate_actions theta self observation a1 in
  let '(v2, _, _) := evaluate_actions theta self observation a2 in
  let '((_, v, _), _) := forward theta self observation g in
  v1 = v2 /\ v1 = v.
Proof.
  unfold evaluate_actions, forward, _forward, _preprocess.
  destruct (sample _ g). split; reflexivity.
Qed.

End PolicyProperties.

Lemma C2_forward_acts_witness :
  exists self w',
    __init__ (Box [8]) (Discrete 4) 128 (1 # 1000)%Q (1 # 100000)%Q false
             world0 = (inr self, w')
    /\ forward (torch := ShapeTorch) (heap_shapes w') self [16; 8] 0%nat
       = (([16], [16; 1], [16]), 1%nat).
Proof.
  eexists _, _. split; [apply init_built |].
  rewrite (proj1 (@C2_forward_acts ShapeTorch _ _ _ _ _ _ _ _ _
                    (heap_shapes _) [16; 8] 0%nat
                    (init_built 8 [] 4 128 (1 # 1000)%Q (1 # 100000)%Q
                                false world0))).
  reflexivity.
Defined.

(** ** [run], call by call *)

(** [run] makes the six calls up to the environment, builds the policy
    in the world they leave, and on success makes the five calls from the
    buffer on; a failure of the constructor ends it. *)
Lemma run_unfold args w :
  run args w =
  let obs := fst (gym_registry w "LunarLander-v2") in
  let act := snd (gym_registry w "LunarLander-v2") in
  let t0 := length (trace w) in
  match __init__ obs act (hiddensize args) (lr args) (rms_prop_eps args)
          (args_ortho_init args)
          (mkWorld (heap w) (trace w ++ run_prefix args (seed_passed args w))
                   (np_random_after args w) (gym_registry w)) with
  | (inl e, w2) => (inl e, w2)
  | (inr policy, w2) =>
      (inr (10 + t0)%nat,
       mkWorld (heap w2) (trace w2 ++ run_suffix args t0 obs act policy)
               (np_random w2) (gym_registry w2))
  end.
Proof.
  destruct w as [h t g r].
  unfold run, seed_passed, np_random_after, run_prefix, make_env.
  cbn [heap trace np_random gym_registry].
  destruct (seed args) as [s |];
    repeat (unfold bind at 1;
            cbn [ret call np_random_randint heap trace np_random gym_registry
                 env_obj env_observation_space env_action_space]);
    rewrite <- !app_assoc; cbn [app];
    match goal with
    | |- context [__init__ ?a ?b ?c ?d ?e ?f ?w] =>
        destruct (__init__ a b c d e f w) as [[e0 | pol] w2] eqn:E
    end; try reflexivity;
    destruct (init_frame _ _ _ _ _ _ _ _ _ E) as (Ht & _ & _);
    cbn [trace] in Ht;
    unfold call, run_suffix; cbn [heap trace np_random gym_registry];
    rewrite Ht, ?length_app; cbn [length];
    rewrite ?(Nat.add_comm (length t)); cbn [Nat.add];
    rewrite ?Nat.add_1_r, <- ?app_assoc; cbn [app]; reflexivity.
Qed.

(** What [run] leaves behind, by outcome. *)
Lemma run_outcome args w :
  let obs := fst (gym_registry w "LunarLander-v2") in
  let act := snd (gym_registry w "LunarLander-v2") in
  let t0 := length (trace w) in
  let w' := snd (run args w) in
  np_random w' = np_random_after args w
  /\ ((exists e,
          fst (run args w) = inl e
          /\ trace w' = trace w ++ run_prefix args (seed_passed args w))
      \/ (exists policy,
             fst (run args w) = inr (10 + t0)%nat
             /\ trace w'
                = trace w ++ run_prefix args (seed_passed args w)
                          ++ run_suffix args t0 obs act policy)).
Proof.
  cbv zeta. rewrite run_unfold. cbv zeta.
  match goal with
  | |- context [__init__ ?a ?b ?c ?d ?e ?f ?w] =>
      destruct (__init__ a b c d e f w) as [[e0 | pol] w2] eqn:E
  end;
    destruct (init_frame _ _ _ _ _ _ _ _ _ E) as (Ht & Hg & _);
    cbn [trace np_random] in Ht, Hg; cbn [fst snd trace np_random];
    (split; [assumption |]).
  - left. eauto.
  - right. exists pol. rewrite Ht, <- app_assoc. auto.
Qed.

(** No library call fails in this development; so here, with a box of
    at least one dimension and a discrete action space registered for the
    environment, [run] returns. *)
Lemma run_returns args w d sh n :
  gym_registry w "LunarLander-v2" = (Box (d :: sh), Discrete n) ->
  exists r, fst (run args w) = inr r.
Proof.
  intros Hreg. rewrite run_unfold. cbv zeta. rewrite Hreg. cbn [fst snd].
  rewrite init_built. cbn [fst]. eauto.
Qed.

Lemma calls_since_app w w' cs :
  trace w' = trace w ++ cs -> calls_since w w' = cs.
Proof. intros H. unfold calls_since. rewrite H. apply drop_app_length. Qed.

Ltac run_cases args w Hnp Hres Htr :=
  cbv zeta;
  destruct (run_outcome args w)
    as (Hnp & [(?e & Hres & Htr) | (?policy & Hres & Htr)]);
  cbv zeta in Hnp, Hres, Htr;
  rewrite (calls_since_app _ _ _ Htr);
  unfold run_prefix, run_suffix in *;
  cbn [app GeneralBuffer_calls A2C_calls make_vec_env_seeds flat_map].

(** ** The rollout buffer and the rollout length *)

(** C5: every rollout buffer [run] allocates has [n_steps + 1] timesteps
    and [n_envs] environments, every trainer it constructs has rollout
    length [n_steps], and it allocates at most one buffer.  When [run]
    returns, it has allocated exactly one buffer and constructed exactly
    one trainer, the buffer is one timestep longer than the trainer's
    rollout length, and the trainer was handed that buffer. *)
Theorem C5_buffer_one_longer_than_rollout args w :
  let w' := snd (run args w) in
  (forall b, In b (GeneralBuffer_calls (calls_since w w')) ->
             gb_buffer_size b = n_steps args + 1
             /\ gb_n_envs b = n_envs args)
  /\ (forall a, In a (A2C_calls (calls_since w w')) ->
                a2c_rollout_len a = n_steps args)
  /\ (length (GeneralBuffer_calls (calls_since w w')) <= 1)%nat
  /\ (forall r, fst (run args w) = inr r ->
        exists b a,
          GeneralBuffer_calls (calls_since w w') = [b]
          /\ A2C_calls (calls_since w w') = [a]
          /\ gb_buffer_size b = a2c_rollout_len a + 1
          /\ trace w' !! a2c_rollout_buffer a = Some (GeneralBuffer b)).
Proof.
  run_cases args w Hnp Hres Htr.
  - repeat split; try contradiction; auto.
    intros r Hr. congruence.
  - split; [| split; [| split]].
    + intros b [<- | []]. split; reflexivity.
    + intros a [<- | []]. reflexivity.
    + cbn. lia.
    + intros r _. eexists _, _.
      split; [reflexivity |]. split; [reflexivity |].
      split; [reflexivity |].
      cbn [a2c_rollout_buffer]. rewrite Htr.
      rewrite (lookup_at _ _ 6) by reflexivity. reflexivity.
Qed.

Lemma C5_buffer_witness :
  exists b a,
    GeneralBuffer_calls
      (calls_since world0 (snd (run default_args world0))) = [b]
    /\ A2C_calls (calls_since world0 (snd (run default_args world0))) = [a]
    /\ gb_buffer_size b = a2c_rollout_len a + 1
    /\ trace (snd (run default_args world0)) !! a2c_rollout_buffer a
       = Some (GeneralBuffer b).
Proof.
  destruct (run_returns default_args world0 8 [] 4 eq_refl) as [r Hr].
  destruct (C5_buffer_one_longer_than_rollout default_args world0)
    as (_ & _ & _ & Hret).
  exact (Hret r Hr).
Defined.

(** ** Advantage normalisation *)

(** C7: every trainer [run] constructs is passed
    [normalize_advantage = False], whatever the arguments; and when [run]
    returns it has constructed exactly one trainer. *)
Theorem C7_advantage_normalization_off args w :
  let w' := snd (run args w) in
  (forall a, In a (A2C_calls (calls_since w w')) ->
             a2c_normalize_advantage a = false)
  /\ (forall r, fst (run args w) = inr r ->
        exists a, A2C_calls (calls_since w w') = [a]
                  /\ a2c_normalize_advantage a = false).
Proof.
  run_cases args w Hnp Hres Htr.
  - split; [contradiction |]. intros r Hr. congruence.
  - split.
    + intros a [<- | []]. reflexivity.
    + intros r _. eexists. split; reflexivity.
Qed.

Lemma C7_advantage_normalization_witness :
  exists a,
    A2C_calls (calls_since world0 (snd (run default_args world0))) = [a]
    /\ a2c_normalize_advantage a = false.
Proof.
  destruct (run_returns default_args world0 8 [] 4 eq_refl) as [r Hr].
  exact (proj2 (C7_advantage_normalization_off default_args world0) r Hr).
Defined.

(** ** The seed of the environments *)

(** Any value of the range can come out of [np.random.randint]. *)
Lemma randint_reaches v low high h t r :
  low <= v < high ->
  fst (np_random_randint low high
         (mkWorld h t (mkRandomState (fun _ => v - low) 0) r)) = inr v.
Proof.
  intros Hv. unfold np_random_randint. cbn. f_equal.
  rewrite Z.mod_small by lia. lia.
Qed.

(** C10: [run] creates the environments once, for LunarLander-v2 with
    [n_envs] environments, and with one seed.  When [args.seed] is given,
    that seed is the one passed and numpy's generator is not used; when
    it is [None], the seed passed is what [np.random.randint(0, 2**16)]
    returns, an integer from 0 up to but excluding 65536, and the
    generator has made that one draw. *)
Theorem C10_seed_of_environments args w :
  let w' := snd (run args w) in
  exists sd,
    make_vec_env_seeds (calls_since w w') = [sd]
    /\ trace w' !! (5 + length (trace w))%nat
       = Some (make_vec_env "LunarLander-v2" (n_envs args) sd SubprocVecEnv)
    /\ match seed args with
       | Some s => sd = s /\ np_random w' = np_random w
       | None =>
           (exists w1, np_random_randint 0 (2 ^ 16) w = (inr sd, w1)
                       /\ np_random w' = np_random w1)
           /\ 0 <= sd < 2 ^ 16
       end.
Proof.
  cbv zeta. exists (seed_passed args w).
  destruct (run_outcome args w)
    as (Hnp & [(e & Hres & Htr) | (policy & Hres & Htr)]);
    cbv zeta in Hnp, Hres, Htr;
    rewrite (calls_since_app _ _ _ Htr), Htr, Hnp;
    (split; [reflexivity |]);
    (split; [rewrite (lookup_at _ _ 5) by reflexivity; reflexivity |]);
    unfold seed_passed, np_random_after;
    destruct (seed args) as [s |]; auto;
    (split; [eexists; split; reflexivity |]);
    pose proof (Z.mod_pos_bound
                  (np_tape (np_random w) (np_pos (np_random w)))
                  (2 ^ 16 - 0) eq_refl);
    lia.
Qed.

(** * Further properties *)

(** ** More on the constructor *)

(** What a successful construction returns and leaves, in one equation. *)
Lemma init_success_built obs act hs lr eps oi w self w' :
  __init__ obs act hs lr eps oi w = (inr self, w') ->
  exists d sh n,
    obs = Box (d :: sh) /\ act = Discrete n
    /\ self = built_policy (length (heap w)) d sh n hs lr eps oi
    /\ w' = mkWorld (heap w
                       ++ branch_heap d hs n (weight_init (1 # 100)%Q oi)
                                      (bias_init oi)
                       ++ branch_heap d hs 1 (weight_init 1%Q oi)
                                      (bias_init oi))
                    (trace w) (np_random w) (gym_registry w).
Proof.
  intros H.
  destruct (init_success_inv _ _ _ _ _ _ _ _ _ H) as (d & sh & n & -> & ->).
  rewrite init_built in H. injection H as <- <-.
  exists d, sh, n. auto.
Qed.

(** X1: the optimizer is Adam, with the learning rate and epsilon given,
    over exactly the parameters of the two branches, the actor's first:
    twelve tensors, none twice, and they are the tensors this
    construction allocated. *)
Theorem X1_optimizer_over_all_parameters obs act hs lr eps oi w self w' :
  __init__ obs act hs lr eps oi w = (inr self, w') ->
  opt_params (optimizer self)
  = parameters (action_layers self) ++ parameters (value_layers self)
  /\ NoDup (opt_params (optimizer self))
  /\ length (opt_params (optimizer self)) = 12%nat
  /\ (forall a, In a (opt_params (optimizer self)) <->
                (length (heap w) <= a < length (heap w'))%nat)
  /\ opt_lr (optimizer self) = lr
  /\ opt_eps (optimizer self) = eps.
Proof.
  intros H.
  destruct (init_success_built _ _ _ _ _ _ _ _ _ H)
    as (d & sh & n & -> & -> & -> & ->).
  cbn [built_policy optimizer action_layers value_layers opt_params
       opt_lr opt_eps heap].
  split; [reflexivity |]. split; [apply NoDup_seq |].
  split; [reflexivity |]. split; [| split; reflexivity].
  intros a. rewrite in_seq, !length_app. cbn [length branch_heap]. lia.
Qed.

Lemma X1_optimizer_witness :
  exists self w',
    __init__ (Box [8]) (Discrete 4) 128 (1 # 1000)%Q (1 # 100000)%Q true
             world0 = (inr self, w')
    /\ opt_params (optimizer self) = seq 0 12.
Proof.
  eexists _, _. split; [apply init_built |].
  rewrite (proj1 (X1_optimizer_over_all_parameters _ _ _ _ _ _ _ _ _
                    (init_built 8 [] 4 128 (1 # 1000)%Q (1 # 100000)%Q
                                true world0))).
  reflexivity.
Defined.

(** X2: every linear layer of either branch has on the heap a weight of
    shape (out_features, in_features) and a bias of shape
    (out_features,). *)
Theorem X2_tensors_fit_layers obs act hs lr eps oi w self w' :
  __init__ obs act hs lr eps oi w = (inr self, w') ->
  forall i o wt b,
    In (Linear i o wt b)
       (children (action_layers self) ++ children (value_layers self)) ->
    p_shape <$> heap w' !! wt = Some [o; i]
    /\ p_shape <$> heap w' !! b = Some [o].
Proof.
  intros H.
  destruct (init_success_built _ _ _ _ _ _ _ _ _ H)
    as (d & sh & n & -> & -> & -> & ->).
  cbn [built_policy action_layers value_layers children branch app heap].
  intros i o wt b Hin.
  repeat (destruct Hin as [Heq | Hin]; [try discriminate Heq |]);
    try contradiction; injection Heq as <- <- <- <-; split.
  all: first
    [ rewrite (lookup_at _ _ 0) by reflexivity; reflexivity
    | rewrite (lookup_at _ _ 1) by reflexivity; reflexivity
    | rewrite (lookup_at _ _ 2) by reflexivity; reflexivity
    | rewrite (lookup_at _ _ 3) by reflexivity; reflexivity
    | rewrite (lookup_at _ _ 4) by reflexivity; reflexivity
    | rewrite (lookup_at _ _ 5) by reflexivity; reflexivity
    | rewrite (lookup_at _ _ 6) by reflexivity; reflexivity
    | rewrite (lookup_at _ _ 7) by reflexivity; reflexivity
    | rewrite (lookup_at _ _ 8) by reflexivity; reflexivity
    | rewrite (lookup_at _ _ 9) by reflexivity; reflexivity
    | rewrite (lookup_at _ _ 10) by reflexivity; reflexivity
    | rewrite (lookup_at _ _ 11) by reflexivity; reflexivity ].
Qed.

Lemma X2_tensors_fit_witness :
  p_shape <$> heap (snd (__init__ (Box [8]) (Discrete 4) 128 (1 # 1000)%Q
                                  (1 # 100000)%Q true world0)) !! 4%nat
  = Some [4; 128].
Proof.
  rewrite init_built.
  refine (proj1 (X2_tensors_fit_layers _ _ _ _ _ _ _ _ _
                   (init_built 8 [] 4 128 (1 # 1000)%Q (1 # 100000)%Q
                               true world0) 128 4 4%nat 5%nat _)).
  cbn. auto 10.
Defined.

(** X3: of the shape of the observation space only the first entry is
    read.  Two constructions that differ only in the later entries of the
    shape, when they return, return the same branches and optimizer and
    leave the same world, and the input layer of each branch has the
    width of the first entry. *)
Theorem X3_only_first_dimension d sh sh' n hs lr eps oi w self w1 self' w1' :
  __init__ (Box (d :: sh)) (Discrete n) hs lr eps oi w = (inr self, w1) ->
  __init__ (Box (d :: sh')) (Discrete n) hs lr eps oi w = (inr self', w1') ->
  action_layers self = action_layers self'
  /\ value_layers self = value_layers self'
  /\ optimizer self = optimizer self'
  /\ w1 = w1'
  /\ (exists wt b rest,
         children (action_layers self) = Linear d hs wt b :: rest)
  /\ (exists wt b rest,
         children (value_layers self) = Linear d hs wt b :: rest).
Proof.
  rewrite !init_built. intros [= <- <-] [= <- <-].
  cbn [action_layers value_layers optimizer children branch].
  repeat split; eauto.
Qed.

Lemma X3_only_first_dimension_witness :
  action_layers
    (built_policy 0 8 [3; 2] 4 128 (1 # 1000)%Q (1 # 100000)%Q true)
  = action_layers
      (built_policy 0 8 [] 4 128 (1 # 1000)%Q (1 # 100000)%Q true).
Proof.
  exact (proj1 (X3_only_first_dimension 8 [3; 2] [] 4 128 (1 # 1000)%Q
                  (1 # 100000)%Q true world0 _ _ _ _
                  (init_built 8 [3; 2] 4 128 (1 # 1000)%Q (1 # 100000)%Q
                              true world0)
                  (init_built 8 [] 4 128 (1 # 1000)%Q (1 # 100000)%Q
                              true world0))).
Defined.

(** X4: the option changes initialisers only.  With the option on and
    with it off the constructor fails alike or builds the same branches
    and optimizer over the same addresses, with tensors of the same
    shapes. *)
Theorem X4_ortho_init_changes_initialisers_only obs act hs lr eps w :
  match __init__ obs act hs lr eps true w,
        __init__ obs act hs lr eps false w with
  | (inr s1, w1), (inr s2, w2) =>
      action_layers s1 = action_layers s2
      /\ value_layers s1 = value_layers s2
      /\ optimizer s1 = optimizer s2
      /\ heap_shape_list w1 = heap_shape_list w2
      /\ trace w1 = trace w2
  | (inl e1, w1), (inl e2, w2) => e1 = e2 /\ w1 = w2
  | _, _ => False
  end.
Proof.
  destruct (init_cases obs act) as [Ho | Ho Ha | n -> -> | d sh n -> ->].
  - rewrite !init_rejects_observation by assumption. auto.
  - rewrite !init_rejects_action by assumption. auto.
  - rewrite !init_empty_shape. auto.
  - rewrite !init_built. unfold heap_shape_list. cbn [heap trace].
    rewrite !fmap_app. repeat split; reflexivity.
Qed.

(** X6: an observation space that is not a box is reported first, with
    the text for an observation space and that space in it, whatever the
    action space is, supported or not. *)
Theorem X6_observation_checked_first obs act act' hs lr eps oi w :
  isinstance_Box obs = false ->
  __init__ obs act hs lr eps oi w
  = (inl (ValueError (Format "Unsupported observation space {}" obs)), w)
  /\ __init__ obs act' hs lr eps oi w = __init__ obs act hs lr eps oi w.
Proof.
  intros Ho. rewrite !init_rejects_observation by assumption. auto.
Qed.

Lemma X6_observation_checked_first_witness :
  __init__ (Discrete 2) (Box [3]) 128 (1 # 1000)%Q (1 # 100000)%Q true world0
  = __init__ (Discrete 2) (Discrete 4) 128 (1 # 1000)%Q (1 # 100000)%Q true
             world0.
Proof.
  apply (proj2 (X6_observation_checked_first (Discrete 2) (Discrete 4)
                  (Box [3]) 128 (1 # 1000)%Q (1 # 100000)%Q true world0
                  eq_refl)).
Defined.

(** ** Re-initialisation *)

Lemma reinitialised_refl touched w : reinitialised touched w w.
Proof. repeat split. Qed.

Lemma reinitialised_trans t1 t2 w1 w2 w3 :
  reinitialised t1 w1 w2 -> reinitialised t2 w2 w3 ->
  reinitialised (t1 ++ t2) w1 w3.
Proof.
  intros (Hs1 & Ht1 & Hn1 & Hr1 & Hl1) (Hs2 & Ht2 & Hn2 & Hr2 & Hl2).
  repeat split; try congruence.
  intros a Ha. rewrite Hl2, Hl1; [reflexivity | |];
    intros Hin; apply Ha, in_or_app; auto.
Qed.

Lemma set_init_reinitialised addr init w :
  exists w', set_init addr init w = (inr tt, w')
             /\ reinitialised [addr] w w'.
Proof.
  eexists. split; [reflexivity |].
  unfold reinitialised, heap_shape_list. cbn [heap trace np_random gym_registry].
  repeat split.
  - rewrite (list_fmap_alter p_shape _ id) by (apply Forall_true; reflexivity).
    apply list_alter_id. reflexivity.
  - intros a Ha. apply list_lookup_alter_ne. cbn in Ha. intuition.
Qed.

Lemma Module_apply_init_weights gain m :
  forall w, exists w',
    Module_apply (init_weights gain) m w = (inr tt, w')
    /\ reinitialised (parameters m) w w'.
Proof.
  induction m as [i o wt b | | cs IH] using Module_nested_ind; intros w.
  - cbn [Module_apply init_weights]. unfold bind at 1. cbn [ret].
    destruct (set_init_reinitialised wt (Orthogonal gain) w)
      as (w1 & E1 & R1).
    destruct (set_init_reinitialised b (Fill 0%Q) w1) as (w2 & E2 & R2).
    exists w2. unfold bind. rewrite E1, E2. split; [reflexivity |].
    apply (reinitialised_trans _ _ _ _ _ R1 R2).
  - exists w. split; [reflexivity | apply reinitialised_refl].
  - cbn [Module_apply init_weights].
    enough (Hgo : forall w0, exists w',
               (fix go (ms : list Module) : M unit :=
                  match ms with
                  | [] => ret tt
                  | c :: ms' => bind (Module_apply (init_weights gain) c)
                                     (fun _ => go ms')
                  end) cs w0 = (inr tt, w')
               /\ reinitialised (parameters (Sequential cs)) w0 w').
    { destruct (Hgo w) as (w' & E & R). exists w'.
      unfold bind at 1. rewrite E. split; [reflexivity | assumption]. }
    induction IH as [| c cs Hc _ IHcs]; intros w0.
    + exists w0. split; [reflexivity | apply reinitialised_refl].
    + destruct (Hc w0) as (w1 & E1 & R1).
      destruct (IHcs w1) as (w2 & E2 & R2).
      exists w2. unfold bind at 1. rewrite E1, E2.
      split; [reflexivity |].
      rewrite parameters_Sequential_cons.
      apply (reinitialised_trans _ _ _ _ _ R1 R2).
Qed.

(** X7: whatever modules and gains the loop is given and whatever the
    heap holds, re-initialisation does not fail, allocates nothing,
    keeps every shape, makes no library call and leaves every tensor that
    is not a parameter of a listed module as it was. *)
Theorem X7_reinitialisation_keeps_shapes module_gains w :
  exists w',
    apply_gains module_gains w = (inr tt, w')
    /\ length (heap w') = length (heap w)
    /\ heap_shape_list w' = heap_shape_list w
    /\ trace w' = trace w
    /\ forall a,
        (forall m gain, In (m, gain) module_gains -> ~ In a (parameters m)) ->
        heap w' !! a = heap w !! a.
Proof.
  enough (H : exists w',
             apply_gains module_gains w = (inr tt, w')
             /\ reinitialised
                  (flat_map (fun mg => parameters (fst mg)) module_gains)
                  w w').
  { destruct H as (w' & E & (Hs & Ht & _ & _ & Hl)). exists w'.
    split; [assumption |]. split.
    - unfold heap_shape_list in Hs.
      rewrite <- (length_fmap p_shape (heap w')), Hs. apply length_fmap.
    - split; [assumption |]. split; [assumption |].
      intros a Ha. apply Hl. rewrite in_flat_map.
      intros ([m gain] & Hin & Hp). exact (Ha m gain Hin Hp). }
  revert w. induction module_gains as [| [m gain] rest IH]; intros w.
  - exists w. split; [reflexivity | apply reinitialised_refl].
  - destruct (Module_apply_init_weights gain m w) as (w1 & E1 & R1).
    destruct (IH w1) as (w2 & E2 & R2).
    exists w2. cbn [apply_gains flat_map fst]. unfold bind at 1.
    rewrite E1, E2. split; [reflexivity |].
    apply (reinitialised_trans _ _ _ _ _ R1 R2).
Qed.

(** ** Parameters and outputs *)

Section UpdateProperties.

Context {torch : Torch}.

Lemma Module_call_with_param theta addr t m x :
  ~ In addr (parameters m) ->
  Module_call (with_param theta addr t) m x = Module_call theta m x.
Proof.
  intros Hnot. apply Module_call_ext. intros a Ha. unfold with_param.
  destruct (Nat.eqb_spec a addr) as [-> | _]; [contradiction | reflexivity].
Qed.

Lemma built_branches_disjoint base d sh n hs lr eps oi a :
  In a (parameters
          (action_layers (built_policy base d sh n hs lr eps oi))) ->
  In a (parameters
          (value_layers (built_policy base d sh n hs lr eps oi))) ->
  False.
Proof.
  cbn [built_policy action_layers value_layers].
  rewrite !parameters_branch, !in_seq. lia.
Qed.

(** X8: for a policy the constructor built, overwriting a parameter of
    the critic branch changes neither the action [forward] samples, nor
    its log-probability, nor the generator afterwards; overwriting a
    parameter of the actor branch does not change the value. *)
Theorem X8_forward_branches_separate obs act hs lr eps oi w self w'
    (theta : nat -> Tensor) (x : Tensor) (g : Generator)
    (addr : nat) (t : Tensor) :
  __init__ obs act hs lr eps oi w = (inr self, w') ->
  let '((a1, v1, lp1), g1) := forward theta self x g in
  let '((a2, v2, lp2), g2) := forward (with_param theta addr t) self x g in
  (In addr (parameters (value_layers self)) ->
   a1 = a2 /\ lp1 = lp2 /\ g1 = g2)
  /\ (In addr (parameters (action_layers self)) -> v1 = v2).
Proof.
  intros H.
  destruct (init_success_built _ _ _ _ _ _ _ _ _ H)
    as (d & sh & n & -> & -> & -> & ->).
  unfold forward, _forward, _preprocess.
  destruct (sample _ g) as [a1 g1] eqn:E1.
  destruct (sample (Categorical (Module_call (with_param theta addr t) _ _)) g)
    as [a2 g2] eqn:E2.
  split.
  - intros Hin.
    rewrite Module_call_with_param in E2
      by (intros Ha; exact (built_branches_disjoint _ _ _ _ _ _ _ _ _ Ha Hin)).
    rewrite E1 in E2. injection E2 as <- <-.
    rewrite Module_call_with_param
      by (intros Ha; exact (built_branches_disjoint _ _ _ _ _ _ _ _ _ Ha Hin)).
    auto.
  - intros Hin. symmetry. apply Module_call_with_param.
    intros Hv. exact (built_branches_disjoint _ _ _ _ _ _ _ _ _ Hin Hv).
Qed.

(** X9: for a policy the constructor built, overwriting a parameter of
    the critic branch changes neither the log-probability nor the entropy
    [evaluate_actions] returns; overwriting a parameter of the actor
    branch does not change the value it returns. *)
Theorem X9_evaluate_branches_separate obs act hs lr eps oi w self w'
    (theta : nat -> Tensor) (observation action : Tensor)
    (addr : nat) (t : Tensor) :
  __init__ obs act hs lr eps oi w = (inr self, w') ->
  let '(v1, lp1, h1) := evaluate_actions theta self observation action in
  let '(v2, lp2, h2) :=
    evaluate_actions (with_param theta addr t) self observation action in
  (In addr (parameters (value_layers self)) -> lp1 = lp2 /\ h1 = h2)
  /\ (In addr (parameters (action_layers self)) -> v1 = v2).
Proof.
  intros H.
  destruct (init_success_built _ _ _ _ _ _ _ _ _ H)
    as (d & sh & n & -> & -> & -> & ->).
  unfold evaluate_actions, _forward, _preprocess.
  split.
  - intros Hin.
    rewrite Module_call_with_param
      by (intros Ha; exact (built_branches_disjoint _ _ _ _ _ _ _ _ _ Ha Hin)).
    auto.
  - intros Hin. symmetry. apply Module_call_with_param.
    intros Hv. exact (built_branches_disjoint _ _ _ _ _ _ _ _ _ Hin Hv).
Qed.

End UpdateProperties.

Lemma X8_forward_branches_witness :
  let '((a1, v1, lp1), g1) :=
    forward (torch := ShapeTorch) (fun _ => [4; 8])
            (built_policy 0 8 [] 4 4 (1 # 1000)%Q (1 # 100000)%Q false)
            [16; 8] 0%nat in
  let '((a2, v2, lp2), g2) :=
    forward (torch := ShapeTorch)
            (with_param (torch := ShapeTorch) (fun _ => [4; 8]) 7 [9; 9])
            (built_policy 0 8 [] 4 4 (1 # 1000)%Q (1 # 100000)%Q false)
            [16; 8] 0%nat in
  a1 = a2 /\ lp1 = lp2 /\ g1 = g2.
Proof.
  generalize (@X8_forward_branches_separate ShapeTorch _ _ _ _ _ _ _ _ _
                (fun _ => [4; 8]) [16; 8] 0%nat 7%nat [9; 9]
                (init_built 8 [] 4 4 (1 # 1000)%Q (1 # 100000)%Q false
                            world0)).
  cbn. intros [Hc _]. apply Hc. auto 10.
Defined.

Lemma X9_evaluate_branches_witness :
  let '(v1, lp1, h1) :=
    evaluate_actions (torch := ShapeTorch) (fun _ => [4; 8])
            (built_policy 0 8 [] 4 4 (1 # 1000)%Q (1 # 100000)%Q false)
            [16; 8] [16] in
  let '(v2, lp2, h2) :=
    evaluate_actions (torch := ShapeTorch)
            (with_param (torch := ShapeTorch) (fun _ => [4; 8]) 2 [9; 9])
            (built_policy 0 8 [] 4 4 (1 # 1000)%Q (1 # 100000)%Q false)
            [16; 8] [16] in
  v1 = v2.
Proof.
  generalize (@X9_evaluate_branches_separate ShapeTorch _ _ _ _ _ _ _ _ _
                (fun _ => [4; 8]) [16; 8] [16] 2%nat [9; 9]
                (init_built 8 [] 4 4 (1 # 1000)%Q (1 # 100000)%Q false
                            world0)).
  cbn. intros [_ Hv]. apply Hv. auto 10.
Defined.

(** ** More on [run] *)

(** A returning [run], in one equation. *)
Lemma run_success_built args w r :
  fst (run args w) = inr r ->
  exists d sh n,
    gym_registry w "LunarLander-v2" = (Box (d :: sh), Discrete n)
    /\ r = (10 + length (trace w))%nat
    /\ snd (run args w)
       = mkWorld
           (heap w
              ++ branch_heap d (hiddensize args) n
                   (weight_init (1 # 100)%Q (args_ortho_init args))
                   (bias_init (args_ortho_init args))
              ++ branch_heap d (hiddensize args) 1
                   (weight_init 1%Q (args_ortho_init args))
                   (bias_init (args_ortho_init args)))
           (trace w
              ++ run_prefix args (seed_passed args w)
              ++ run_suffix args (length (trace w)) (Box (d :: sh))
                   (Discrete n)
                   (built_policy (length (heap w)) d sh n (hiddensize args)
                                 (lr args) (rms_prop_eps args)
                                 (args_ortho_init args)))
           (np_random_after args w) (gym_registry w).
Proof.
  rewrite run_unfold. cbv zeta.
  destruct (gym_registry w "LunarLander-v2") as [obs act] eqn:Hreg.
  cbn [fst snd].
  destruct (init_cases obs act) as [Ho | Ho Ha | n -> -> | d sh n -> ->].
  - rewrite init_rejects_observation by assumption. discriminate.
  - rewrite init_rejects_action by assumption. discriminate.
  - rewrite init_empty_shape. discriminate.
  - rewrite init_built. cbn [fst snd heap trace np_random gym_registry].
    intros [= <-]. exists d, sh, n.
    rewrite <- app_assoc. auto.
Qed.

(** With an unsupported space [run] ends at the constructor's check. *)
Lemma run_unsupported args w :
  let obs := fst (gym_registry w "LunarLander-v2") in
  let act := snd (gym_registry w "LunarLander-v2") in
  isinstance_Box obs && isinstance_Discrete act = false ->
  run args w
  = (inl (ValueError
            (Format (if isinstance_Box obs
                     then "Unsupported action space {}"
                     else "Unsupported observation space {}") obs)),
     world_before_policy args w).
Proof.
  cbv zeta. intros Hbad. rewrite run_unfold. cbv zeta.
  fold (world_before_policy args w).
  destruct (gym_registry w "LunarLander-v2") as [obs act].
  cbn [fst snd] in *.
  destruct (isinstance_Box obs) eqn:Ho.
  - rewrite init_rejects_action by (cbn in Hbad; assumption). reflexivity.
  - rewrite init_rejects_observation by assumption. reflexivity.
Qed.

Lemma calls_since_mkWorld w h cs g r :
  calls_since w (mkWorld h (trace w ++ cs) g r) = cs.
Proof. apply calls_since_app. reflexivity. Qed.

Ltac lookup_trace :=
  match goal with
  | |- context [@lookup _ _ _ _ ?n (?h ++ ?l)] =>
      first [ rewrite (lookup_at h l 0 n) by (cbn; lia)
            | rewrite (lookup_at h l 1 n) by (cbn; lia)
            | rewrite (lookup_at h l 2 n) by (cbn; lia)
            | rewrite (lookup_at h l 3 n) by (cbn; lia)
            | rewrite (lookup_at h l 4 n) by (cbn; lia)
            | rewrite (lookup_at h l 5 n) by (cbn; lia)
            | rewrite (lookup_at h l 6 n) by (cbn; lia)
            | rewrite (lookup_at h l 7 n) by (cbn; lia)
            | rewrite (lookup_at h l 8 n) by (cbn; lia)
            | rewrite (lookup_at h l 9 n) by (cbn; lia)
            | rewrite (lookup_at h l 10 n) by (cbn; lia) ]
  end.

Ltac run_returned args w r H :=
  cbv zeta;
  destruct (run_success_built args w r H) as (?d & ?sh & ?n & Hreg & -> & Hw);
  rewrite Hw; cbn [heap trace np_random gym_registry];
  rewrite calls_since_mkWorld;
  unfold run_prefix, run_suffix;
  cbn [app GeneralBuffer_calls A2C_calls OnPolicyCollector_calls
       learn_calls make_vec_env_seeds flat_map];
  unfold Obj.

(** X10: when the observation space of the environment is not a box, or
    its action space is not discrete, [run] raises the constructor's
    [ValueError] for an unsupported space, the one for the observation
    space first.  It has then built the five callbacks and the
    environment and nothing else: no buffer, no collector, no trainer,
    no tensor, and it has not started learning. *)
Theorem X10_run_stops_at_unsupported_spaces args w :
  let obs := fst (gym_registry w "LunarLander-v2") in
  let act := snd (gym_registry w "LunarLander-v2") in
  let w' := snd (run args w) in
  let e := ValueError
             (Format (if isinstance_Box obs
                      then "Unsupported action space {}"
                      else "Unsupported observation space {}") obs) in
  isinstance_Box obs && isinstance_Discrete act = false ->
  fst (run args w) = inl e
  /\ __init__ obs act (hiddensize args) (lr args) (rms_prop_eps args)
              (args_ortho_init args) (world_before_policy args w)
     = (inl e, world_before_policy args w)
  /\ calls_since w w' = run_prefix args (seed_passed args w)
  /\ length (calls_since w w') = 6%nat
  /\ GeneralBuffer_calls (calls_since w w') = []
  /\ OnPolicyCollector_calls (calls_since w w') = []
  /\ A2C_calls (calls_since w w') = []
  /\ learn_calls (calls_since w w') = []
  /\ heap w' = heap w.
Proof.
  cbv zeta. intros Hbad.
  rewrite (run_unsupported args w Hbad). cbn [fst snd].
  split; [reflexivity |]. split.
  - destruct (isinstance_Box (fst (gym_registry w "LunarLander-v2"))) eqn:Ho.
    + apply init_rejects_action; [assumption | exact Hbad].
    + apply init_rejects_observation; assumption.
  - unfold world_before_policy. rewrite calls_since_mkWorld.
    repeat split.
Qed.

Lemma X10_run_stops_witness :
  fst (run default_args
           (mkWorld [] [] (mkRandomState (fun _ => 0) 0)
                    (fun _ => (Box [8], Box [2]))))
  = inl (ValueError (Format "Unsupported action space {}" (Box [8])))
  /\ A2C_calls
       (calls_since
          (mkWorld [] [] (mkRandomState (fun _ => 0) 0)
                   (fun _ => (Box [8], Box [2])))
          (snd (run default_args
                    (mkWorld [] [] (mkRandomState (fun _ => 0) 0)
                             (fun _ => (Box [8], Box [2])))))) = [].
Proof.
  destruct (X10_run_stops_at_unsupported_spaces default_args
              (mkWorld [] [] (mkRandomState (fun _ => 0) 0)
                       (fun _ => (Box [8], Box [2]))) eq_refl)
    as (He & _ & _ & _ & _ & _ & Ha & _).
  split; [exact He | exact Ha].
Defined.

(** X11: when [run] returns it has built one buffer, one collector and
    one trainer; the trainer holds that collector, and both hold the same
    policy, that buffer and the environment [make_vec_env] returned; the
    buffer and the policy have the spaces of that environment; all three
    are on [args.device]. *)
Theorem X11_run_wires_objects args w r :
  fst (run args w) = inr r ->
  let w' := snd (run args w) in
  exists b c a sd,
    GeneralBuffer_calls (calls_since w w') = [b]
    /\ OnPolicyCollector_calls (calls_since w w') = [c]
    /\ A2C_calls (calls_since w w') = [a]
    /\ trace w' !! a2c_collector a = Some (OnPolicyCollector c)
    /\ a2c_policy a = opc_policy c
    /\ a2c_rollout_buffer a = opc_buffer c
    /\ a2c_env a = opc_env c
    /\ trace w' !! opc_buffer c = Some (GeneralBuffer b)
    /\ trace w' !! opc_env c
       = Some (make_vec_env "LunarLander-v2" (n_envs args) sd SubprocVecEnv)
    /\ (gb_observation_space b, gb_action_space b)
       = gym_registry w "LunarLander-v2"
    /\ observation_space (a2c_policy a) = gb_observation_space b
    /\ action_space (a2c_policy a) = gb_action_space b
    /\ gb_device b = device args
    /\ opc_device c = device args
    /\ a2c_device a = device args.
Proof.
  intros H. run_returned args w r H.
  eexists _, _, _, _.
  do 3 (split; [reflexivity |]).
  cbn [a2c_collector a2c_policy opc_policy a2c_rollout_buffer opc_buffer
       a2c_env opc_env gb_observation_space gb_action_space gb_device
       opc_device a2c_device built_policy observation_space action_space].
  repeat lookup_trace. rewrite Hreg. repeat split.
Qed.

(** X12: when [run] returns, the collector's only callback is the
    rollout logger, and the trainer's callbacks are, in this order, the
    learning logger built from [args.log_interval] and [args.log_dir],
    the weight logger writing weights.json, the gradient logger writing
    grads.json and the logger of the hyperparameters, built from all of
    [args]. *)
Theorem X12_run_registers_callbacks args w r :
  fst (run args w) = inr r ->
  let w' := snd (run args w) in
  exists c a,
    OnPolicyCollector_calls (calls_since w w') = [c]
    /\ A2C_calls (calls_since w w') = [a]
    /\ (fun o => trace w' !! o) <$> opc_callbacks c
       = [Some LogRolloutCallback]
    /\ (fun o => trace w' !! o) <$> a2c_callbacks a
       = [Some (InitLogCallback (log_interval args) (log_dir args));
          Some (LogWeightCallback "weights.json");
          Some (LogGradCallback "grads.json");
          Some (LogHyperparameters args)].
Proof.
  intros H. run_returned args w r H.
  eexists _, _. do 2 (split; [reflexivity |]).
  cbn [opc_callbacks a2c_callbacks fmap list_fmap].
  repeat lookup_trace. split; reflexivity.
Qed.

(** X13: when [run] returns, its last three calls are the construction
    of the trainer, one [learn] on that trainer for
    [args.total_timesteps], and [log_score] on [args.log_dir], whose
    result is what [run] returns; there is no other [learn]. *)
Theorem X13_run_learns_then_scores args w r :
  fst (run args w) = inr r ->
  let w' := snd (run args w) in
  exists a,
    length (trace w') = S r
    /\ trace w' !! r = Some (log_score (log_dir args))
    /\ trace w' !! (r - 1)%nat
       = Some (learn (r - 2)%nat (total_timesteps args))
    /\ trace w' !! (r - 2)%nat = Some (A2C a)
    /\ learn_calls (calls_since w w')
       = [((r - 2)%nat, total_timesteps args)].
Proof.
  intros H. run_returned args w r H.
  eexists.
  split; [rewrite length_app; cbn [length]; lia |].
  repeat lookup_trace. cbn [lookup list_lookup].
  replace (10 + length (trace w) - 2)%nat with (8 + length (trace w))%nat
    by lia.
  repeat split.
Qed.

(** X14: when [run] returns, the policy it handed to the trainer has
    hidden width [args.hiddensize] and the flag [args.ortho_init], its
    optimizer has learning rate [args.lr] and epsilon [args.rms_prop_eps]
    and holds exactly the twelve tensors [run] added to the heap; the
    trainer got [args.val_coef] as its value coefficient and the entropy
    coefficient, lambda, gamma, batch size and gradient bound of [args]
    under their own names. *)
Theorem X14_run_passes_hyperparameters args w r :
  fst (run args w) = inr r ->
  let w' := snd (run args w) in
  exists a,
    A2C_calls (calls_since w w') = [a]
    /\ hidden_size (a2c_policy a) = hiddensize args
    /\ ortho_init (a2c_policy a) = args_ortho_init args
    /\ opt_lr (optimizer (a2c_policy a)) = lr args
    /\ opt_eps (optimizer (a2c_policy a)) = rms_prop_eps args
    /\ length (heap w') = (length (heap w) + 12)%nat
    /\ (forall addr, In addr (opt_params (optimizer (a2c_policy a))) <->
                     (length (heap w) <= addr < length (heap w'))%nat)
    /\ (forall addr, (addr < length (heap w))%nat ->
                     heap w' !! addr = heap w !! addr)
    /\ a2c_ent_coef a = ent_coef args
    /\ a2c_vf_coef a = val_coef args
    /\ a2c_gae_lambda a = gae_lambda args
    /\ a2c_gamma a = gamma args
    /\ a2c_batch_size a = batch_size args
    /\ a2c_max_grad_norm a = max_grad_norm args.
Proof.
  intros H. run_returned args w r H.
  eexists. split; [reflexivity |].
  cbn [a2c_policy built_policy hidden_size ortho_init optimizer opt_lr
       opt_eps opt_params a2c_ent_coef a2c_vf_coef a2c_gae_lambda a2c_gamma
       a2c_batch_size a2c_max_grad_norm].
  do 4 (split; [reflexivity |]).
  assert (Hlen : length (heap w
                           ++ branch_heap d (hiddensize args) n
                                (weight_init (1 # 100)%Q (args_ortho_init args))
                                (bias_init (args_ortho_init args))
                           ++ branch_heap d (hiddensize args) 1
                                (weight_init 1%Q (args_ortho_init args))
                                (bias_init (args_ortho_init args)))
                 = (length (heap w) + 12)%nat)
    by (rewrite !length_app; reflexivity).
  split; [exact Hlen |].
  split; [intros addr; rewrite in_seq, Hlen; lia |].
  split; [intros addr Hlt; apply lookup_app_l; assumption |].
  repeat split.
Qed.

(** ** The further properties at the parser's defaults *)

Lemma run_default_returns : fst (run default_args world0) = inr 10%nat.
Proof. vm_compute. reflexivity. Qed.

Lemma X11_run_wires_witness :
  exists c a,
    OnPolicyCollector_calls
      (calls_since world0 (snd (run default_args world0))) = [c]
    /\ A2C_calls (calls_since world0 (snd (run default_args world0))) = [a]
    /\ a2c_policy a = opc_policy c
    /\ a2c_rollout_buffer a = opc_buffer c.
Proof.
  destruct (X11_run_wires_objects default_args world0 10%nat
              run_default_returns)
    as (b & c & a & sd & _ & Hc & Ha & _ & Hp & Hb & _).
  exists c, a. auto.
Defined.

Lemma X12_run_callbacks_witness :
  exists a,
    A2C_calls (calls_since world0 (snd (run default_args world0))) = [a]
    /\ (fun o => trace (snd (run default_args world0)) !! o)
         <$> a2c_callbacks a
       = [Some (InitLogCallback 500 None);
          Some (LogWeightCallback "weights.json");
          Some (LogGradCallback "grads.json");
          Some (LogHyperparameters default_args)].
Proof.
  destruct (X12_run_registers_callbacks default_args world0 10%nat
              run_default_returns) as (c & a & _ & Ha & _ & Hcb).
  exists a. auto.
Defined.

Lemma X13_run_learns_witness :
  trace (snd (run default_args world0)) !! 9%nat = Some (learn 8%nat 400000)
  /\ trace (snd (run default_args world0)) !! 10%nat = Some (log_score None).
Proof.
  destruct (X13_run_learns_then_scores default_args world0 10%nat
              run_default_returns) as (a & _ & Hs & Hl & _).
  split; assumption.
Defined.

Lemma X14_run_hyperparameters_witness :
  exists a,
    A2C_calls (calls_since world0 (snd (run default_args world0))) = [a]
    /\ opt_lr (optimizer (a2c_policy a)) = (83 # 100000)%Q
    /\ a2c_vf_coef a = (25 # 100)%Q.
Proof.
  destruct (X14_run_passes_hyperparameters default_args world0 10%nat
              run_default_returns)
    as (a & Ha & _ & _ & Hlr & _ & _ & _ & _ & _ & Hvf & _).
  exists a. auto.
Defined.
